(** * Quiz score simulation: a shallow embedding of [main.py]

    The program simulates participants who answer a multiple-choice quiz
    at random, shifts each score by an assumed amount of prior knowledge,
    and tallies the scores into a frequency table.

    Python integers are [Z].  The module-level generator of [random] is a
    piece of global state: it is threaded explicitly, together with the
    one mutable attribute of the program ([GradeDistribution.scores]).
    A call either returns a value or raises; in both cases the state it
    leaves behind is observable, so a computation maps a state to an
    outcome and a state. *)

From stdpp Require Import gmap list fin_maps.
From stdpp Require Import sorting.
From Stdlib Require Import ZArith Lia.

Local Open Scope Z_scope.

(** ** Exceptions and the state-and-exception monad *)

(** The only exception the modelled code can raise is the [ValueError] of
    [random.randrange] on an empty range. *)
Inductive exn : Set :=
| ValueError.

Inductive outcome (A : Type) : Type :=
| Returns (a : A)
| Raises (e : exn).
Arguments Returns {A} a.
Arguments Raises {A} e.

Definition Py (S A : Type) : Type := S -> outcome A * S.

Definition ret {S A} (a : A) : Py S A := fun s => (Returns a, s).

Definition raise {S A} (e : exn) : Py S A := fun s => (Raises e, s).

Definition bind {S A B} (m : Py S A) (k : A -> Py S B) : Py S B :=
  fun s =>
    match m s with
    | (Returns a, s') => k a s'
    | (Raises e, s') => (Raises e, s')
    end.

Declare Scope py_scope.
Delimit Scope py_scope with py.
Notation "x <- m ;; k" := (bind m (fun x => k))
  (at level 100, m at next level, right associativity) : py_scope.
Notation "m ;; k" := (bind m (fun _ => k))
  (at level 100, right associativity) : py_scope.

Definition get {S} : Py S S := fun s => (Returns s, s).

(** Running a method of a sub-object: the computation sees the component
    [proj s] of the state and its final component is written back. *)
Definition zoom {S T A} (proj : S -> T) (upd : T -> S -> S) (m : Py T A) : Py S A :=
  fun s => let '(r, t) := m (proj s) in (r, upd t s).

(** [for _ in range(n): body].  A non-positive [n] gives an empty range. *)
Fixpoint repeat_py {S} (n : nat) (body : Py S unit) : Py S unit :=
  match n with
  | O => ret tt
  | S n' => (body ;; repeat_py n' body)%py
  end.

Definition for_range {S} (n : Z) (body : Py S unit) : Py S unit :=
  repeat_py (Z.to_nat n) body.

(** ** The random source *)

(** The generator state is abstract.  [randbelow n] is the primitive of
    CPython's [random.Random]: for [n > 0] it returns an integer of
    [0 .. n-1] and advances the state. *)
Class RandomSource (G : Type) : Type := {
  randbelow : Z -> G -> Z * G;
  randbelow_range : forall n g, 0 < n -> 0 <= fst (randbelow n g) < n
}.

Section Random.
Context {G : Type} `{RandomSource G}.

(** [random.randrange(start, stop)]: an empty range raises before the
    generator is touched. *)
Definition randrange (start stop : Z) : Py G Z :=
  fun g =>
    let width := stop - start in
    if 0 <? width
    then let '(r, g') := randbelow width g in (Returns (start + r), g')
    else raise ValueError g.

(** [random.randint(a, b)] is [randrange(a, b + 1)]. *)
Definition randint (a b : Z) : Py G Z := randrange a (b + 1).
End Random.

(** ** QuizSimulator *)

Record QuizSimulator : Set := {
  num_questions : Z;
  num_options : Z;
  sim_knowledge_shift : Z
}.

(** [QuizSimulator.__init__], with its default arguments as separate
    definitions. *)
Definition QuizSimulator_init (num_questions num_options knowledge_shift : Z)
  : QuizSimulator :=
  {| num_questions := num_questions;
     num_options := num_options;
     sim_knowledge_shift := knowledge_shift |}.

Definition default_num_questions : Z := 20.
Definition default_num_options : Z := 4.

(** A Python [bool] used as a summand. *)
Definition int_of_bool (b : bool) : Z := if b then 1 else 0.

(** The test applied to each draw in the generator expression of
    [simulate_participant_score]: [random.randint(1, self.num_options) == 4]. *)
Definition is_correct (draw : Z) : bool := draw =? 4.

Section Simulator.
Context {G : Type} `{RandomSource G}.

(** [sum(random.randint(1, num_options) == 4 for _ in range(n))]: the
    built-in [sum] starts from [0] and adds the items from left to
    right, each item being produced by one draw. *)
Fixpoint sum_draws (num_options : Z) (n : nat) (acc : Z) : Py G Z :=
  match n with
  | O => ret acc
  | S n' =>
      (draw <- randint 1 num_options ;;
       sum_draws num_options n' (acc + int_of_bool (is_correct draw)))%py
  end.

Definition correct_answers (self : QuizSimulator) : Py G Z :=
  sum_draws (num_options self) (Z.to_nat (num_questions self)) 0.

Definition simulate_participant_score (self : QuizSimulator) : Py G Z :=
  (correct <- correct_answers self ;;
   ret (Z.min (num_questions self) (correct + sim_knowledge_shift self)))%py.
End Simulator.

(** ** GradeDistribution *)

Record GradeDistribution : Set := {
  scores : list Z
}.

Definition GradeDistribution_init : GradeDistribution := {| scores := [] |}.

(** [self.scores.append(score)] *)
Definition add_score (score : Z) : Py GradeDistribution unit :=
  fun self => (Returns tt, {| scores := scores self ++ [score] |}).

(** [collections.Counter(iterable)] visits the items in order and
    performs [c[x] = c.get(x, 0) + 1] for each; [dict(...)] copies the
    table.  Equality of Python dictionaries ignores insertion order, as
    does equality of [gmap]. *)
Definition count_element (c : gmap Z Z) (x : Z) : gmap Z Z :=
  <[x := default 0 (c !! x) + 1]> c.

Definition Counter (l : list Z) : gmap Z Z := foldl count_element ∅ l.

Definition calculate_distribution : Py GradeDistribution (gmap Z Z) :=
  fun self => (Returns (Counter (scores self)), self).

(** Sum of the frequencies of a table. *)
Definition total_count (d : gmap Z Z) : Z :=
  map_fold (fun _ c acc => c + acc) 0 d.

(** ** QuizAnalyzer *)

Record QuizAnalyzer : Set := {
  num_participants : Z;
  knowledge_shift : Z;
  quiz_simulator : QuizSimulator;
  grade_distribution : GradeDistribution
}.

Definition default_num_participants : Z := 1000.

(** [QuizAnalyzer.__init__]: the simulator is built with
    [QuizSimulator(knowledge_shift=knowledge_shift)], the other two
    parameters taking their defaults. *)
Definition QuizAnalyzer_init (num_participants knowledge_shift : Z) : QuizAnalyzer :=
  {| num_participants := num_participants;
     knowledge_shift := knowledge_shift;
     quiz_simulator :=
       QuizSimulator_init default_num_questions default_num_options knowledge_shift;
     grade_distribution := GradeDistribution_init |}.

Definition set_grade_distribution (gd : GradeDistribution) (self : QuizAnalyzer)
  : QuizAnalyzer :=
  {| num_participants := num_participants self;
     knowledge_shift := knowledge_shift self;
     quiz_simulator := quiz_simulator self;
     grade_distribution := gd |}.

(** The state a run acts on: the analyzer object and the global generator. *)
Record World (G : Type) : Type := {
  analyzer : QuizAnalyzer;
  generator : G
}.
Arguments analyzer {G} w.
Arguments generator {G} w.

Definition set_analyzer {G} (a : QuizAnalyzer) (w : World G) : World G :=
  {| analyzer := a; generator := generator w |}.

Definition set_generator {G} (g : G) (w : World G) : World G :=
  {| analyzer := analyzer w; generator := g |}.

Section Analyzer.
Context {G : Type} `{RandomSource G}.

(** A method call on [self.quiz_simulator] only touches the generator;
    one on [self.grade_distribution] only touches that object. *)
Definition with_generator {A} (m : Py G A) : Py (World G) A :=
  zoom generator set_generator m.

Definition with_grade_distribution {A} (m : Py GradeDistribution A)
  : Py (World G) A :=
  zoom (fun w => grade_distribution (analyzer w))
       (fun gd w => set_analyzer (set_grade_distribution gd (analyzer w)) w) m.

Definition run_simulation_body : Py (World G) unit :=
  (w <- get ;;
   score <- with_generator (simulate_participant_score (quiz_simulator (analyzer w))) ;;
   with_grade_distribution (add_score score))%py.

Definition run_simulation : Py (World G) unit :=
  (w <- get ;;
   for_range (num_participants (analyzer w)) run_simulation_body)%py.

(** [self.grade_distribution.calculate_distribution()], the first
    statement of [plot_distribution]. *)
Definition distribution : Py (World G) (gmap Z Z) :=
  with_grade_distribution calculate_distribution.

(** A single run followed by the tally. *)
Definition run_and_tally : Py (World G) (gmap Z Z) :=
  (run_simulation ;; distribution)%py.

(** [n] successive calls of [run_simulation] on the same object. *)
Definition run_simulation_times (n : nat) : Py (World G) unit :=
  repeat_py n run_simulation.
End Analyzer.

(** ** The scores of a run, as a function

    What [n] iterations of the loop of [run_simulation] append to the
    score list, read off the generator alone: the scores of the
    participants simulated so far, whether the loop completed, and the
    generator it leaves. *)
Section Trace.
Context {G : Type} `{RandomSource G}.

Fixpoint scores_of_run (sim : QuizSimulator) (n : nat) (g : G)
  : (list Z * outcome unit) * G :=
  match n with
  | O => (([], Returns tt), g)
  | S n' =>
      match simulate_participant_score sim g with
      | (Returns s, g1) =>
          let '((l, r), g2) := scores_of_run sim n' g1 in ((s :: l, r), g2)
      | (Raises e, g1) => (([], Raises e), g1)
      end
  end.

Definition append_scores (l : list Z) (g : G) (w : World G) : World G :=
  {| analyzer :=
       set_grade_distribution
         {| scores := scores (grade_distribution (analyzer w)) ++ l |}
         (analyzer w);
     generator := g |}.
End Trace.

(** An analyzer whose [quiz_simulator] attribute holds a simulator built
    directly with [QuizSimulator(...)], the accumulator being fresh: the
    constructor of [QuizAnalyzer] cannot set the number of questions or
    of options, an assignment to the attribute can. *)
Definition analyzer_of (sim : QuizSimulator) (participants : Z) : QuizAnalyzer :=
  {| num_participants := participants;
     knowledge_shift := sim_knowledge_shift sim;
     quiz_simulator := sim;
     grade_distribution := GradeDistribution_init |}.

Definition fresh_world {G} (a : QuizAnalyzer) (g : G) : World G :=
  {| analyzer := a; generator := g |}.

(** ** Predicates on configurations *)

(** The draws cannot fail when there is no question or at least one
    option: [range] is empty in the first case, [randint] has a
    non-empty range in the second. *)
Definition can_draw (self : QuizSimulator) : Prop :=
  num_questions self <= 0 \/ 1 <= num_options self.

(** The one way a run can fail: a participant to simulate, a question to
    answer and no option to draw. *)
Definition draw_fails (a : QuizAnalyzer) : Prop :=
  0 < num_participants a
  /\ 0 < num_questions (quiz_simulator a)
  /\ num_options (quiz_simulator a) < 1.

(** A score the simulator can return: the clamped sum of the raw count
    and the shift. *)
Definition produced (sim : QuizSimulator) (s : Z) : Prop :=
  exists c,
    s = Z.min (num_questions sim) (c + sim_knowledge_shift sim)
    /\ 0 <= c <= Z.max 0 (num_questions sim)
    /\ (num_options sim < 4 -> c = 0).

(** The constraints the specification puts on a configuration; the code
    itself states none. *)
Definition valid_configuration (sim : QuizSimulator) : Prop :=
  0 < num_questions sim /\ 2 <= num_options sim /\ 0 <= sim_knowledge_shift sim.

Definition invalid_configuration (a : QuizAnalyzer) : Prop :=
  num_questions (quiz_simulator a) <= 0
  \/ num_options (quiz_simulator a) < 2
  \/ sim_knowledge_shift (quiz_simulator a) < 0
  \/ num_participants a < 0.

(** The success test of the specification: the designated correct option
    is the last one. *)
Definition spec_is_correct (num_options draw : Z) : bool := draw =? num_options.

(** ** Plotting and the whole analysis

    [matplotlib] is outside the program; what the program decides is the
    data it hands over.  A [Chart] records the arguments of the calls of
    [plot_distribution] that depend on the state: the two sequences
    given to [plt.bar], the two numbers formatted into the title and the
    tick positions given to [plt.xticks].  The model returns it where the
    Python method displays it and returns [None]; the messages printed by
    [analyze] are left out. *)
Record Chart : Set := {
  bar_scores : list Z;
  bar_frequencies : list Z;
  title_participants : Z;
  title_shift : Z;
  xticks : list Z
}.

(** The order of Python on tuples of two integers: lexicographic. *)
Definition item_le (a b : Z * Z) : Prop :=
  a.1 < b.1 \/ (a.1 = b.1 /\ a.2 <= b.2).

#[export] Instance item_le_dec : RelDecision item_le.
Proof. intros a b. unfold item_le. apply _. Defined.

(** [sorted(distribution.items())].  The items of a dictionary have
    distinct keys, so they are pairwise different and the sorted list
    does not depend on the order in which [items()] lists them, nor on
    the sorting algorithm. *)
Definition sorted_items (d : gmap Z Z) : list (Z * Z) :=
  merge_sort item_le (map_to_list d).

(** [scores, frequencies = zip( *items )]: [zip] of at least one pair
    yields two tuples, the first and the second components; [zip] of no
    argument yields nothing and the unpacking into two targets raises
    [ValueError]. *)
Definition unzip_items {S} (items : list (Z * Z)) : Py S (list Z * list Z) :=
  match items with
  | [] => raise ValueError
  | _ :: _ => ret (items.*1, items.*2)
  end.

(** [range(start, stop)] as the list of its elements. *)
Definition range (start stop : Z) : list Z := seqZ start (stop - start).

Section Plot.
Context {G : Type} `{RandomSource G}.

Definition plot_distribution : Py (World G) Chart :=
  (d <- distribution ;;
   columns <- unzip_items (sorted_items d) ;;
   w <- get ;;
   ret {| bar_scores := columns.1;
          bar_frequencies := columns.2;
          title_participants := num_participants (analyzer w);
          title_shift := knowledge_shift (analyzer w);
          xticks := range 0 (num_questions (quiz_simulator (analyzer w)) + 1) |})%py.

Definition analyze : Py (World G) Chart :=
  (run_simulation ;; plot_distribution)%py.
End Plot.

(** Number of occurrences of a score in a list of scores. *)
Definition occurrences (x : Z) (l : list Z) : Z := Z.of_nat (count_occ Z.eq_dec l x).

(** Sum of a list of integers. *)
Definition sum_Z (l : list Z) : Z := foldr Z.add 0 l.

(** ** A run as a function of the draws

    The values a generator yields are all a run sees of it.  [draws]
    lists the first [n] values of [randbelow bound] from a state, and
    [tally_of_draws] is what a run followed by the tally returns, as a
    function of the analyzer and of those values alone. *)
Section Draws.
Context {G : Type} `{RandomSource G}.

Fixpoint draws (bound : Z) (n : nat) (g : G) : list Z :=
  match n with
  | O => []
  | S n' => (randbelow bound g).1 :: draws bound n' (randbelow bound g).2
  end.

Fixpoint after_draws (bound : Z) (n : nat) (g : G) : G :=
  match n with
  | O => g
  | S n' => after_draws bound n' (randbelow bound g).2
  end.

(** The draws of a whole run: one per question and participant. *)
Definition draws_of_run (a : QuizAnalyzer) (g : G) : list Z :=
  draws (num_options (quiz_simulator a))
        (Z.to_nat (num_participants a) * Z.to_nat (num_questions (quiz_simulator a)))
        g.
End Draws.

(** The score of one participant from the values drawn for its
    questions: [randint(1, n)] is one more than the value drawn. *)
Definition score_of_draws (sim : QuizSimulator) (ds : list Z) : Z :=
  Z.min (num_questions sim)
        (foldl (fun acc r => acc + int_of_bool (is_correct (1 + r))) 0 ds
         + sim_knowledge_shift sim).

Fixpoint scores_of_draws (sim : QuizSimulator) (n : nat) (ds : list Z) : list Z :=
  match n with
  | O => []
  | S n' =>
      score_of_draws sim (take (Z.to_nat (num_questions sim)) ds)
      :: scores_of_draws sim n' (drop (Z.to_nat (num_questions sim)) ds)
  end.

Definition draw_fails_b (a : QuizAnalyzer) : bool :=
  (0 <? num_participants a)
  && (0 <? num_questions (quiz_simulator a))
  && (num_options (quiz_simulator a) <? 1).

Definition tally_of_draws (a : QuizAnalyzer) (ds : list Z) : outcome (gmap Z Z) :=
  if draw_fails_b a then Raises ValueError
  else Returns (Counter (scores (grade_distribution a)
                         ++ scores_of_draws (quiz_simulator a)
                              (Z.to_nat (num_participants a)) ds)).

(** A generator that replays a recorded list of values. *)
Definition replay_randbelow (n : Z) (tape : list Z) : Z * list Z :=
  match tape with
  | [] => (0, [])
  | x :: rest => (x mod n, rest)
  end.

Lemma replay_randbelow_range n tape : 0 < n -> 0 <= fst (replay_randbelow n tape) < n.
Proof.
  intros Hn. destruct tape as [|x rest]; cbn; [lia|].
  apply Z.mod_pos_bound. exact Hn.
Qed.

Definition replay_source : RandomSource (list Z) := {|
  randbelow := replay_randbelow;
  randbelow_range := replay_randbelow_range
|}.

(** ** A concrete generator for evaluating the model

    A linear congruential generator; any generator would do, this one
    makes the definitions above run. *)
Definition lcg_next (g : Z) : Z := (1103515245 * g + 12345) mod 2147483648.

Definition lcg_randbelow (n : Z) (g : Z) : Z * Z :=
  let g' := lcg_next g in ((g' / 65536) mod n, g').

Lemma lcg_randbelow_range n g : 0 < n -> 0 <= fst (lcg_randbelow n g) < n.
Proof. intros Hn. cbn. apply Z.mod_pos_bound. exact Hn. Qed.

#[export] Instance lcg_source : RandomSource Z := {
  randbelow := lcg_randbelow;
  randbelow_range := lcg_randbelow_range
}.

(** The model runs: ten participants with a shift of 4, from seed 42. *)
Example run_simulation_example :
  let '(r, w') := run_simulation (fresh_world (QuizAnalyzer_init 10 4) 42) in
  r = Returns tt
  /\ scores (grade_distribution (analyzer w')) = [7; 11; 9; 12; 9; 10; 10; 11; 7; 7].
Proof. vm_compute. split; reflexivity. Qed.

Example Counter_example :
  Counter [7; 11; 9; 12; 9; 10; 10; 11; 7; 7]
  = <[7 := 3]> (<[9 := 2]> (<[10 := 2]> (<[11 := 2]> {[ 12 := 1 ]}))).
Proof. vm_compute. reflexivity. Qed.

Example randint_empty_range_example :
  randint 1 0 (42 : Z) = (Raises ValueError, 42).
Proof. reflexivity. Qed.

(** * Properties *)

(** ** One participant *)

Section SimulatorFacts.
Context {G : Type} `{RandomSource G}.

Lemma randint_returns (b : Z) (g : G) :
  1 <= b ->
  exists d g', randint 1 b g = (Returns d, g') /\ 1 <= d <= b.
Proof.
  intros Hb. unfold randint, randrange.
  replace (b + 1 - 1) with b by lia.
  destruct (Z.ltb_spec 0 b) as [Hpos|]; [|lia].
  pose proof (randbelow_range b g Hpos) as Hr.
  destruct (randbelow b g) as [r g']. cbn in Hr.
  exists (1 + r), g'. split; [reflexivity | lia].
Qed.

Lemma randint_raises (b : Z) (g : G) :
  b < 1 -> randint 1 b g = (Raises ValueError, g).
Proof.
  intros Hb. unfold randint, randrange.
  destruct (Z.ltb_spec 0 (b + 1 - 1)); [lia | reflexivity].
Qed.

Lemma is_correct_below_4 (d : Z) : d < 4 -> is_correct d = false.
Proof. intros Hd. unfold is_correct. apply Z.eqb_neq. lia. Qed.

(** With at least one option every draw succeeds; the sum counts at
    most one per question, and nothing at all when option 4 does not
    exist. *)
Lemma sum_draws_returns (opts : Z) (n : nat) :
  1 <= opts ->
  forall acc g,
  exists c g',
    sum_draws opts n acc g = (Returns (acc + c), g')
    /\ 0 <= c <= Z.of_nat n
    /\ (opts < 4 -> c = 0).
Proof.
  intros Hopts. induction n as [|n IH]; intros acc g.
  - exists 0, g. cbn. rewrite Z.add_0_r. repeat split; lia.
  - destruct (randint_returns opts g Hopts) as (d & g1 & Hd & Hrange).
    destruct (IH (acc + int_of_bool (is_correct d)) g1) as (c & g2 & Hc & Hb & Hz).
    exists (int_of_bool (is_correct d) + c), g2.
    cbn [sum_draws]. unfold bind at 1. rewrite Hd, Hc.
    split; [f_equal; f_equal; lia|].
    split.
    + destruct (is_correct d); cbn [int_of_bool]; lia.
    + intros Hlt. rewrite (Hz Hlt), is_correct_below_4 by lia. reflexivity.
Qed.

Lemma sum_draws_raises (opts : Z) (n : nat) (acc : Z) (g : G) :
  opts < 1 -> sum_draws opts (S n) acc g = (Raises ValueError, g).
Proof.
  intros Hopts. cbn [sum_draws]. unfold bind.
  rewrite (randint_raises opts g Hopts). reflexivity.
Qed.

Lemma correct_answers_returns (self : QuizSimulator) (g : G) :
  can_draw self ->
  exists c g',
    correct_answers self g = (Returns c, g')
    /\ 0 <= c <= Z.max 0 (num_questions self)
    /\ (num_options self < 4 -> c = 0).
Proof.
  intros [Hq | Ho]; unfold correct_answers.
  - replace (Z.to_nat (num_questions self)) with O by lia.
    exists 0, g. cbn. split; [reflexivity|]. split; lia.
  - destruct (sum_draws_returns (num_options self)
                (Z.to_nat (num_questions self)) Ho 0 g) as (c & g' & Hc & Hb & Hz).
    exists c, g'. rewrite Hc. split; [reflexivity|]. split; [lia | exact Hz].
Qed.

Lemma correct_answers_raises (self : QuizSimulator) (g : G) :
  0 < num_questions self -> num_options self < 1 ->
  correct_answers self g = (Raises ValueError, g).
Proof.
  intros Hq Ho. unfold correct_answers.
  destruct (Z.to_nat (num_questions self)) as [|n] eqn:E; [lia|].
  apply sum_draws_raises. exact Ho.
Qed.

Lemma simulate_returns (self : QuizSimulator) (g : G) :
  can_draw self ->
  exists c g',
    correct_answers self g = (Returns c, g')
    /\ simulate_participant_score self g
       = (Returns (Z.min (num_questions self) (c + sim_knowledge_shift self)), g')
    /\ 0 <= c <= Z.max 0 (num_questions self)
    /\ (num_options self < 4 -> c = 0).
Proof.
  intros Hd.
  destruct (correct_answers_returns self g Hd) as (c & g' & Hc & Hb & Hz).
  exists c, g'. unfold simulate_participant_score, bind. rewrite Hc.
  split; [reflexivity|]. split; [reflexivity|]. split; [lia | exact Hz].
Qed.

Lemma simulate_raises (self : QuizSimulator) (g : G) :
  0 < num_questions self -> num_options self < 1 ->
  simulate_participant_score self g = (Raises ValueError, g).
Proof.
  intros Hq Ho. unfold simulate_participant_score, bind.
  rewrite (correct_answers_raises self g Hq Ho). reflexivity.
Qed.

Lemma can_draw_dec (self : QuizSimulator) :
  can_draw self \/ (0 < num_questions self /\ num_options self < 1).
Proof. unfold can_draw. lia. Qed.
End SimulatorFacts.

(** ** The tally *)

Section CounterFacts.
Implicit Types (c : gmap Z Z) (l : list Z) (x : Z).

Lemma total_count_empty : total_count ∅ = 0.
Proof. unfold total_count. apply map_fold_empty. Qed.

Lemma total_count_insert_fresh c x v :
  c !! x = None -> total_count (<[x := v]> c) = v + total_count c.
Proof.
  intros Hx. unfold total_count.
  rewrite map_fold_insert_L; [reflexivity | intros; lia | exact Hx].
Qed.

Lemma total_count_count_element c x :
  total_count (count_element c x) = total_count c + 1.
Proof.
  unfold count_element. destruct (c !! x) as [v|] eqn:Hx; cbn [from_option id].
  - rewrite <- (insert_delete_id c x v Hx) at 2.
    rewrite <- insert_delete_eq.
    rewrite !total_count_insert_fresh by apply lookup_delete_eq. lia.
  - rewrite total_count_insert_fresh by exact Hx. lia.
Qed.

Lemma total_count_foldl l : forall c,
  total_count (foldl count_element c l) = total_count c + Z.of_nat (length l).
Proof.
  induction l as [|x l IH]; intros c; cbn [foldl length].
  - lia.
  - rewrite IH, total_count_count_element. lia.
Qed.

Lemma total_count_Counter l : total_count (Counter l) = Z.of_nat (length l).
Proof. unfold Counter. rewrite total_count_foldl, total_count_empty. lia. Qed.

Lemma Counter_nil : Counter [] = ∅.
Proof. reflexivity. Qed.

Lemma foldl_count_replicate x (n : nat) : forall k,
  foldl count_element {[x := k]} (replicate n x) = {[x := k + Z.of_nat n]}.
Proof.
  induction n as [|n IH]; intros k; cbn [replicate foldl].
  - f_equal. lia.
  - unfold count_element at 2. rewrite lookup_singleton_eq. cbn [from_option id].
    rewrite insert_singleton_eq, IH. f_equal. lia.
Qed.

Lemma Counter_replicate x (n : nat) :
  Counter (replicate (S n) x) = {[x := Z.of_nat (S n)]}.
Proof.
  unfold Counter. cbn [replicate foldl].
  unfold count_element at 2. rewrite lookup_empty. cbn [from_option id].
  rewrite insert_empty, foldl_count_replicate. f_equal. lia.
Qed.

Lemma Forall_eq_replicate x l :
  Forall (fun y => y = x) l -> l = replicate (length l) x.
Proof.
  induction 1 as [|y l Hy _ IH]; cbn [length replicate]; [reflexivity|].
  rewrite <- IH, Hy. reflexivity.
Qed.

Lemma Counter_constant x l :
  l <> [] -> Forall (fun y => y = x) l ->
  Counter l = {[x := Z.of_nat (length l)]}.
Proof.
  intros Hne Hall. rewrite (Forall_eq_replicate x l Hall) at 1.
  destruct l as [|y l]; [congruence|]. cbn [length].
  apply Counter_replicate.
Qed.
End CounterFacts.

(** ** The loop of [run_simulation] *)

Section TraceFacts.
Context {G : Type} `{RandomSource G}.
Implicit Types (w : World G) (sim : QuizSimulator) (g : G) (l : list Z).

Lemma append_scores_nil w g : append_scores [] g w = set_generator g w.
Proof.
  destruct w as [[np ks sim [sc]] g0]. unfold append_scores, set_generator.
  cbn. rewrite app_nil_r. reflexivity.
Qed.

Lemma append_scores_same w : append_scores [] (generator w) w = w.
Proof. rewrite append_scores_nil. destruct w. reflexivity. Qed.

Lemma append_scores_twice w l1 l2 g1 g2 :
  append_scores l2 g2 (append_scores l1 g1 w) = append_scores (l1 ++ l2) g2 w.
Proof. unfold append_scores. cbn. rewrite app_assoc. reflexivity. Qed.

Lemma run_simulation_body_step w :
  run_simulation_body w =
  match simulate_participant_score (quiz_simulator (analyzer w)) (generator w) with
  | (Returns s, g1) => (Returns tt, append_scores [s] g1 w)
  | (Raises e, g1) => (Raises e, append_scores [] g1 w)
  end.
Proof.
  unfold run_simulation_body, bind, get, with_generator, zoom.
  destruct (simulate_participant_score _ _) as [[s|e] g1].
  - reflexivity.
  - rewrite append_scores_nil. reflexivity.
Qed.

(** The stateful loop appends exactly the scores of [scores_of_run]. *)
Lemma repeat_body_trace (n : nat) : forall w,
  repeat_py n run_simulation_body w =
  let '((l, r), g') :=
    scores_of_run (quiz_simulator (analyzer w)) n (generator w) in
  (r, append_scores l g' w).
Proof.
  induction n as [|n IH]; intros w.
  - cbn. rewrite append_scores_same. reflexivity.
  - cbn [repeat_py scores_of_run]. unfold bind at 1.
    rewrite run_simulation_body_step.
    destruct (simulate_participant_score _ _) as [[s|e] g1]; [|reflexivity].
    rewrite IH. cbn [append_scores analyzer generator set_grade_distribution
                     quiz_simulator].
    destruct (scores_of_run _ n g1) as [[l r] g2].
    rewrite append_scores_twice. reflexivity.
Qed.

Lemma run_simulation_trace w :
  run_simulation w =
  let '((l, r), g') :=
    scores_of_run (quiz_simulator (analyzer w))
                  (Z.to_nat (num_participants (analyzer w))) (generator w) in
  (r, append_scores l g' w).
Proof. unfold run_simulation, bind, get, for_range. apply repeat_body_trace. Qed.

Lemma scores_of_run_returns sim (n : nat) : can_draw sim -> forall g,
  exists l g',
    scores_of_run sim n g = ((l, Returns tt), g')
    /\ length l = n /\ Forall (produced sim) l.
Proof.
  intros Hd. induction n as [|n IH]; intros g.
  - exists [], g. cbn. auto.
  - destruct (simulate_returns sim g Hd) as (c & g1 & _ & Hs & Hb & Hz).
    destruct (IH g1) as (l & g2 & Hl & Hlen & Hall).
    eexists (_ :: l), g2. cbn [scores_of_run]. rewrite Hs, Hl.
    split; [reflexivity|]. split; [cbn; congruence|].
    constructor; [|exact Hall]. exists c. auto.
Qed.

Lemma scores_of_run_raises sim (n : nat) g :
  0 < num_questions sim -> num_options sim < 1 ->
  scores_of_run sim (S n) g = (([], Raises ValueError), g).
Proof.
  intros Hq Ho. cbn [scores_of_run].
  rewrite (simulate_raises sim g Hq Ho). reflexivity.
Qed.

(** A completed run: [num_participants] scores appended, each one a
    score of the simulator, the configuration untouched. *)
Lemma run_simulation_returns w :
  can_draw (quiz_simulator (analyzer w)) ->
  exists l g',
    run_simulation w = (Returns tt, append_scores l g' w)
    /\ length l = Z.to_nat (num_participants (analyzer w))
    /\ Forall (produced (quiz_simulator (analyzer w))) l.
Proof.
  intros Hd. rewrite run_simulation_trace.
  destruct (scores_of_run_returns (quiz_simulator (analyzer w))
              (Z.to_nat (num_participants (analyzer w))) Hd (generator w))
    as (l & g' & Hl & Hlen & Hall).
  exists l, g'. rewrite Hl. auto.
Qed.

Lemma run_simulation_raises w :
  0 < num_participants (analyzer w) ->
  0 < num_questions (quiz_simulator (analyzer w)) ->
  num_options (quiz_simulator (analyzer w)) < 1 ->
  run_simulation w = (Raises ValueError, w).
Proof.
  intros Hp Hq Ho. rewrite run_simulation_trace.
  destruct (Z.to_nat (num_participants (analyzer w))) as [|n] eqn:E; [lia|].
  rewrite (scores_of_run_raises _ n (generator w) Hq Ho).
  rewrite append_scores_same. reflexivity.
Qed.

Lemma distribution_eq w :
  distribution w =
  (Returns (Counter (scores (grade_distribution (analyzer w)))), w).
Proof.
  destruct w as [[np ks sim [sc]] g0]. reflexivity.
Qed.
End TraceFacts.

(** ** Repeated runs and the tally after a run *)

Section RunFacts.
Context {G : Type} `{RandomSource G}.
Implicit Types (w : World G) (g : G) (l : list Z).

Lemma valid_can_draw (sim : QuizSimulator) : valid_configuration sim -> can_draw sim.
Proof. unfold valid_configuration, can_draw. lia. Qed.

Lemma run_and_tally_returns w :
  can_draw (quiz_simulator (analyzer w)) ->
  exists l g',
    run_and_tally w
    = (Returns (Counter (scores (grade_distribution (analyzer w)) ++ l)),
       append_scores l g' w)
    /\ length l = Z.to_nat (num_participants (analyzer w))
    /\ Forall (produced (quiz_simulator (analyzer w))) l.
Proof.
  intros Hd. destruct (run_simulation_returns w Hd) as (l & g' & Hrun & Hlen & Hall).
  exists l, g'. unfold run_and_tally, bind. rewrite Hrun, distribution_eq.
  auto.
Qed.

Lemma run_simulation_times_returns (n : nat) : forall w,
  can_draw (quiz_simulator (analyzer w)) ->
  exists l g',
    run_simulation_times n w = (Returns tt, append_scores l g' w)
    /\ length l = (n * Z.to_nat (num_participants (analyzer w)))%nat
    /\ Forall (produced (quiz_simulator (analyzer w))) l.
Proof.
  induction n as [|n IH]; intros w Hd.
  - exists [], (generator w). cbn. rewrite append_scores_same. auto.
  - destruct (run_simulation_returns w Hd) as (l1 & g1 & Hrun & Hlen1 & Hall1).
    destruct (IH (append_scores l1 g1 w) Hd) as (l2 & g2 & Hrest & Hlen2 & Hall2).
    exists (l1 ++ l2), g2.
    unfold run_simulation_times in *. cbn [repeat_py]. unfold bind at 1.
    rewrite Hrun, Hrest, append_scores_twice.
    split; [reflexivity|]. split.
    + rewrite length_app, Hlen1, Hlen2. cbn. lia.
    + apply Forall_app. split; assumption.
Qed.
End RunFacts.

(** * The claims of the specification *)

(** C1, as the code has it: the test on a draw is equality with the
    literal 4 whatever the number of options, so it differs from the
    specification's "equals [num_options]" as soon as [num_options] is
    not 4.  With two options the last option, 2, is not counted, and a
    three-question quiz scores 0 for every state of the generator. *)
Theorem is_correct_is_literal_4 :
  (forall draw, is_correct draw = (draw =? 4))
  /\ is_correct 2 = false
  /\ spec_is_correct 2 2 = true
  /\ forall (G : Type) (RS : RandomSource G) (g : G),
       exists g', simulate_participant_score (QuizSimulator_init 3 2 0) g
                  = (Returns 0, g').
Proof.
  split; [reflexivity|]. split; [reflexivity|]. split; [reflexivity|].
  intros G RS g.
  destruct (simulate_returns (QuizSimulator_init 3 2 0) g) as (c & g' & _ & Hs & _ & Hz).
  - right. cbn. lia.
  - exists g'. rewrite Hs, Hz by (cbn; lia). reflexivity.
Qed.

(** C3, as the code has it: with one question, one option, no shift and
    five participants, every draw is 1, which is not 4, so every
    participant scores 0 and the table is [{0: 5}], not [{1: 5}]. *)
Theorem single_option_distribution (G : Type) (RS : RandomSource G) (g : G) :
  fst (run_and_tally (fresh_world (analyzer_of (QuizSimulator_init 1 1 0) 5) g))
  = Returns {[ 0 := 5 ]}.
Proof.
  set (w := fresh_world _ g).
  destruct (run_and_tally_returns w) as (l & g' & Hrun & Hlen & Hall).
  - right. cbn. lia.
  - rewrite Hrun. cbn [fst]. f_equal.
    change (scores (grade_distribution (analyzer w))) with (@nil Z).
    rewrite app_nil_l.
    assert (Hzero : Forall (fun s => s = 0) l).
    { eapply Forall_impl; [exact Hall|]. intros s (c & Hs & _ & Hz).
      rewrite Hs, Hz by (cbn; lia). reflexivity. }
    rewrite (Counter_constant 0 l).
    + rewrite Hlen. reflexivity.
    + intros ->. discriminate Hlen.
    + exact Hzero.
Qed.

(** C2 as stated fails: the shift -1 makes the configuration invalid, yet
    the analyzer is constructed and the run completes, recording five
    scores. *)
Lemma invalid_configuration_runs :
  invalid_configuration (QuizAnalyzer_init 5 (-1))
  /\ exists w',
       run_simulation (fresh_world (QuizAnalyzer_init 5 (-1)) 0)
       = (Returns tt, w')
       /\ length (scores (grade_distribution (analyzer w'))) = 5%nat.
Proof.
  split.
  - unfold invalid_configuration. cbn. lia.
  - eexists. split; vm_compute; reflexivity.
Qed.

(** C2, amended: nothing is validated.  A run raises only the
    [ValueError] of an empty draw range, exactly when there is a
    participant, a question and no option; the exception leaves the
    score list and the generator as they were.  Every other run, valid or
    not, completes and appends one score per participant. *)
Theorem run_simulation_outcome (G : Type) (RS : RandomSource G) (w : World G) :
  match run_simulation w with
  | (Returns _, w') =>
      ~ draw_fails (analyzer w)
      /\ exists l,
           w' = append_scores l (generator w') w
           /\ length l = Z.to_nat (num_participants (analyzer w))
  | (Raises e, w') =>
      draw_fails (analyzer w) /\ e = ValueError /\ w' = w
  end.
Proof.
  destruct (can_draw_dec (quiz_simulator (analyzer w))) as [Hd | [Hq Ho]].
  - destruct (run_simulation_returns w Hd) as (l & g' & Hrun & Hlen & _).
    rewrite Hrun. split.
    + unfold draw_fails, can_draw in *. lia.
    + exists l. cbn [append_scores generator]. auto.
  - destruct (Z.ltb_spec 0 (num_participants (analyzer w))) as [Hp | Hp].
    + rewrite (run_simulation_raises w Hp Hq Ho). unfold draw_fails. auto.
    + rewrite run_simulation_trace.
      replace (Z.to_nat (num_participants (analyzer w))) with O by lia.
      cbn [scores_of_run]. split.
      * unfold draw_fails. lia.
      * exists []. cbn [append_scores generator length]. split; [|lia].
        reflexivity.
Qed.

(** C4: for a valid configuration and a non-negative number of
    participants, a single run from a fresh accumulator followed by the
    tally returns a table whose frequencies sum to the number of
    participants. *)
Theorem single_run_counts_sum (G : Type) (RS : RandomSource G) (w : World G) :
  valid_configuration (quiz_simulator (analyzer w)) ->
  0 <= num_participants (analyzer w) ->
  scores (grade_distribution (analyzer w)) = [] ->
  exists d w',
    run_and_tally w = (Returns d, w')
    /\ total_count d = num_participants (analyzer w).
Proof.
  intros Hv Hp Hfresh.
  destruct (run_and_tally_returns w (valid_can_draw _ Hv)) as (l & g' & Hrun & Hlen & _).
  eexists _, _. split; [exact Hrun|].
  rewrite Hfresh, app_nil_l, total_count_Counter, Hlen. lia.
Qed.

Lemma single_run_counts_sum_witness :
  exists d w',
    run_and_tally (fresh_world (analyzer_of (QuizSimulator_init 5 3 1) 7) 0)
    = (Returns d, w')
    /\ total_count d = 7.
Proof.
  apply (single_run_counts_sum Z lcg_source
           (fresh_world (analyzer_of (QuizSimulator_init 5 3 1) 7) 0)).
  - unfold valid_configuration. cbn. lia.
  - cbn. lia.
  - reflexivity.
Defined.

(** C5 as stated fails: with -1 questions and no shift the range of
    questions is empty, the raw count is 0 and the score is
    [min(-1, 0) = -1], below 0. *)
Lemma negative_questions_negative_score :
  0 <= sim_knowledge_shift (QuizSimulator_init (-1) 4 0)
  /\ exists s,
       fst (simulate_participant_score (QuizSimulator_init (-1) 4 0) 0) = Returns s
       /\ ~ (0 <= s <= num_questions (QuizSimulator_init (-1) 4 0)).
Proof.
  split; [cbn; lia|].
  exists (-1). split; [reflexivity|]. cbn. lia.
Qed.

(** C5, amended: for a non-negative shift and a non-negative number of
    questions, the score returned is [min(num_questions, raw + shift)]
    for the raw count [raw >= 0] of the draws, and lies between 0 and
    [num_questions].  The call returns unless there is a question and no
    option, in which case the first draw raises. *)
Theorem score_is_clamped_sum (G : Type) (RS : RandomSource G)
    (self : QuizSimulator) (g : G) :
  0 <= sim_knowledge_shift self ->
  0 <= num_questions self ->
  match simulate_participant_score self g with
  | (Returns score, g') =>
      exists raw,
        correct_answers self g = (Returns raw, g')
        /\ 0 <= raw
        /\ score = Z.min (num_questions self) (raw + sim_knowledge_shift self)
        /\ 0 <= score <= num_questions self
  | (Raises e, _) => 0 < num_questions self /\ num_options self < 1
  end.
Proof.
  intros Hk Hq.
  destruct (can_draw_dec self) as [Hd | [Hq' Ho]].
  - destruct (simulate_returns self g Hd) as (c & g' & Hc & Hs & Hb & _).
    rewrite Hs. exists c. repeat split; try assumption; lia.
  - rewrite (simulate_raises self g Hq' Ho). auto.
Qed.

Lemma score_is_clamped_sum_witness :
  match simulate_participant_score (QuizSimulator_init 20 4 3) 1 with
  | (Returns score, g') =>
      exists raw,
        correct_answers (QuizSimulator_init 20 4 3) 1 = (Returns raw, g')
        /\ 0 <= raw
        /\ score = Z.min 20 (raw + 3)
        /\ 0 <= score <= 20
  | (Raises e, _) => 0 < 20 /\ 4 < 1
  end.
Proof.
  apply (score_is_clamped_sum Z lcg_source (QuizSimulator_init 20 4 3) 1).
  - cbn. lia.
  - cbn. lia.
Defined.

(** C6: with a positive shift [k], a returned score is at least
    [min(k, num_questions)] and equals [num_questions] whenever
    [raw + k >= num_questions] (the call returns unless there is a
    question and no option); and 20 questions, 4 options, a shift of 20
    and 10 participants give the table [{20: 10}] for every state of the
    generator. *)
Theorem shifted_score_lower_bound (G : Type) (RS : RandomSource G)
    (self : QuizSimulator) (g : G) :
  0 < sim_knowledge_shift self ->
  match simulate_participant_score self g with
  | (Returns score, g') =>
      exists raw,
        correct_answers self g = (Returns raw, g')
        /\ Z.min (sim_knowledge_shift self) (num_questions self) <= score
        /\ (num_questions self <= raw + sim_knowledge_shift self ->
            score = num_questions self)
  | (Raises e, _) => 0 < num_questions self /\ num_options self < 1
  end
  /\ fst (run_and_tally (fresh_world (QuizAnalyzer_init 10 20) g))
     = Returns {[ 20 := 10 ]}.
Proof.
  intros Hk. split.
  - destruct (can_draw_dec self) as [Hd | [Hq Ho]].
    + destruct (simulate_returns self g Hd) as (c & g' & Hc & Hs & Hb & _).
      rewrite Hs. exists c. split; [exact Hc|]. split; lia.
    + rewrite (simulate_raises self g Hq Ho). auto.
  - set (w := fresh_world _ g).
    destruct (run_and_tally_returns w) as (l & g' & Hrun & Hlen & Hall).
    { right. cbn. unfold default_num_options. lia. }
    rewrite Hrun. cbn [fst]. f_equal.
    change (scores (grade_distribution (analyzer w))) with (@nil Z).
    rewrite app_nil_l.
    assert (Hfull : Forall (fun s => s = 20) l).
    { eapply Forall_impl; [exact Hall|]. intros s (c & Hs & Hb & _).
      cbn in Hs, Hb. unfold default_num_questions in Hs, Hb. lia. }
    rewrite (Counter_constant 20 l).
    + rewrite Hlen. reflexivity.
    + intros ->. discriminate Hlen.
    + exact Hfull.
Qed.

Lemma shifted_score_lower_bound_witness :
  match simulate_participant_score (QuizSimulator_init 20 4 20) 7 with
  | (Returns score, g') =>
      exists raw,
        correct_answers (QuizSimulator_init 20 4 20) 7 = (Returns raw, g')
        /\ Z.min 20 20 <= score
        /\ (20 <= raw + 20 -> score = 20)
  | (Raises e, _) => 0 < 20 /\ 4 < 1
  end
  /\ fst (run_and_tally (fresh_world (QuizAnalyzer_init 10 20) 7))
     = Returns {[ 20 := 10 ]}.
Proof.
  apply (shifted_score_lower_bound Z lcg_source (QuizSimulator_init 20 4 20) 7).
  cbn. lia.
Defined.

(** C7: for a valid configuration, a run with no participant from a
    fresh accumulator returns normally, and the tally is the empty
    table; neither the analyzer nor the generator is touched. *)
Theorem no_participants_empty_distribution (G : Type) (RS : RandomSource G)
    (w : World G) :
  valid_configuration (quiz_simulator (analyzer w)) ->
  num_participants (analyzer w) = 0 ->
  scores (grade_distribution (analyzer w)) = [] ->
  run_simulation w = (Returns tt, w)
  /\ run_and_tally w = (Returns ∅, w).
Proof.
  intros _ Hp Hfresh.
  assert (Hrun : run_simulation w = (Returns tt, w)).
  { rewrite run_simulation_trace, Hp. change (Z.to_nat 0) with O.
    cbn [scores_of_run]. rewrite append_scores_same. reflexivity. }
  split; [exact Hrun|].
  unfold run_and_tally, bind. rewrite Hrun, distribution_eq, Hfresh.
  reflexivity.
Qed.

Lemma no_participants_empty_distribution_witness :
  run_simulation (fresh_world (QuizAnalyzer_init 0 4) 3)
  = (Returns tt, fresh_world (QuizAnalyzer_init 0 4) 3)
  /\ run_and_tally (fresh_world (QuizAnalyzer_init 0 4) 3)
     = (Returns ∅, fresh_world (QuizAnalyzer_init 0 4) 3).
Proof.
  apply (no_participants_empty_distribution Z lcg_source
           (fresh_world (QuizAnalyzer_init 0 4) 3)).
  - unfold valid_configuration. cbn.
    unfold default_num_questions, default_num_options. lia.
  - reflexivity.
  - reflexivity.
Defined.

(** C9 as stated fails: with a shift of -21 the one participant of the
    run scores [raw - 21] for a raw count of at most 20, a negative
    number, outside [0, 20]. *)
Lemma negative_shift_negative_score :
  exists s w',
    run_simulation (fresh_world (QuizAnalyzer_init 1 (-21)) 0) = (Returns tt, w')
    /\ scores (grade_distribution (analyzer w')) = [s]
    /\ ~ (0 <= s <= 20).
Proof.
  eexists _, _. split; [vm_compute; reflexivity|].
  split; [reflexivity|]. lia.
Qed.

(** C9, amended: an analyzer constructed from [num_participants] and
    [knowledge_shift] always simulates 20 questions with 4 options, its
    run always completes, and every score [s] it records satisfies
    [min(0, knowledge_shift) <= s <= 20]; so the scores lie in [0, 20]
    when the shift is not negative. *)
Theorem analyzer_uses_default_quiz (G : Type) (RS : RandomSource G)
    (participants shift : Z) (g : G) :
  num_questions (quiz_simulator (QuizAnalyzer_init participants shift)) = 20
  /\ num_options (quiz_simulator (QuizAnalyzer_init participants shift)) = 4
  /\ sim_knowledge_shift (quiz_simulator (QuizAnalyzer_init participants shift))
     = shift
  /\ exists l g',
       run_simulation (fresh_world (QuizAnalyzer_init participants shift) g)
       = (Returns tt,
          append_scores l g' (fresh_world (QuizAnalyzer_init participants shift) g))
       /\ length l = Z.to_nat participants
       /\ Forall (fun s => Z.min 0 shift <= s <= 20) l.
Proof.
  split; [reflexivity|]. split; [reflexivity|]. split; [reflexivity|].
  set (w := fresh_world (QuizAnalyzer_init participants shift) g).
  destruct (run_simulation_returns w) as (l & g' & Hrun & Hlen & Hall).
  { right. cbn. unfold default_num_options. lia. }
  exists l, g'. split; [exact Hrun|]. split; [exact Hlen|].
  eapply Forall_impl; [exact Hall|]. intros s (c & Hs & Hb & _).
  cbn in Hs, Hb. unfold default_num_questions in Hs, Hb. lia.
Qed.

(** * Further properties of the code *)

(** ** What the tally contains *)

Section TallyFacts.
Implicit Types (c : gmap Z Z) (l : list Z) (x : Z).

Lemma foldl_count_lookup l : forall c x,
  foldl count_element c l !! x =
  match count_occ Z.eq_dec l x with
  | O => c !! x
  | S n => Some (default 0 (c !! x) + Z.of_nat (S n))
  end.
Proof.
  induction l as [|a l IH]; intros c x; [reflexivity|].
  cbn [foldl count_occ]. rewrite IH. unfold count_element.
  destruct (Z.eq_dec a x) as [->|Hne].
  - rewrite lookup_insert_eq. cbn [from_option id].
    destruct (count_occ Z.eq_dec l x); f_equal; lia.
  - rewrite lookup_insert_ne by exact Hne. reflexivity.
Qed.

Lemma Counter_lookup l x :
  Counter l !! x =
  if decide (x ∈ l) then Some (occurrences x l) else None.
Proof.
  unfold Counter, occurrences. rewrite foldl_count_lookup, lookup_empty.
  cbn [from_option id].
  destruct (decide (x ∈ l)) as [Hin|Hout].
  - apply list_elem_of_In, (count_occ_In Z.eq_dec) in Hin.
    destruct (count_occ Z.eq_dec l x); [lia|]. f_equal.
  - destruct (count_occ Z.eq_dec l x) eqn:E; [reflexivity|].
    exfalso. apply Hout, list_elem_of_In, (count_occ_In Z.eq_dec). lia.
Qed.

Lemma occurrences_bounds l x : x ∈ l -> 1 <= occurrences x l <= Z.of_nat (length l).
Proof.
  intros Hin. unfold occurrences.
  apply list_elem_of_In, (count_occ_In Z.eq_dec) in Hin.
  pose proof (count_occ_bound Z.eq_dec x l). lia.
Qed.

Lemma occurrences_absent l x : x ∉ l -> occurrences x l = 0.
Proof.
  intros Hout. unfold occurrences.
  replace (count_occ Z.eq_dec l x) with O; [reflexivity|].
  symmetry. apply (count_occ_not_In Z.eq_dec). rewrite <- list_elem_of_In.
  exact Hout.
Qed.

Lemma occurrences_app l1 l2 x :
  occurrences x (l1 ++ l2) = occurrences x l1 + occurrences x l2.
Proof. unfold occurrences. rewrite count_occ_app. lia. Qed.

Lemma occurrences_Permutation l1 l2 x :
  l1 ≡ₚ l2 -> occurrences x l1 = occurrences x l2.
Proof.
  intros Hp. unfold occurrences. f_equal.
  apply (Permutation_count_occ Z.eq_dec); exact Hp.
Qed.
End TallyFacts.

(** X1: [calculate_distribution] leaves the accumulator as it is and
    returns a table that maps every recorded score to the number of
    times it was recorded, a number between 1 and the number of scores,
    and has no entry for any other value. *)
Theorem calculate_distribution_lookup (self : GradeDistribution) (x : Z) :
  exists d,
    calculate_distribution self = (Returns d, self)
    /\ d !! x = (if decide (x ∈ scores self)
                 then Some (occurrences x (scores self)) else None)
    /\ forall n, d !! x = Some n ->
         x ∈ scores self /\ 1 <= n <= Z.of_nat (length (scores self)).
Proof.
  exists (Counter (scores self)). split; [reflexivity|].
  split; [apply Counter_lookup|].
  intros n. rewrite Counter_lookup.
  destruct (decide (x ∈ scores self)) as [Hin|]; [|discriminate].
  intros [= <-]. split; [exact Hin|]. apply occurrences_bounds, Hin.
Qed.

(** X2: the table does not depend on the order in which the scores were
    added: two accumulators holding the same scores in different orders
    give the same table. *)
Theorem calculate_distribution_order_irrelevant (gd1 gd2 : GradeDistribution) :
  scores gd1 ≡ₚ scores gd2 ->
  fst (calculate_distribution gd1) = fst (calculate_distribution gd2).
Proof.
  intros Hp. cbn. f_equal. apply map_eq. intros x.
  rewrite !Counter_lookup.
  destruct (decide (x ∈ scores gd1)) as [H1|H1];
    destruct (decide (x ∈ scores gd2)) as [H2|H2].
  - f_equal. apply occurrences_Permutation, Hp.
  - exfalso. apply H2. rewrite <- Hp. exact H1.
  - exfalso. apply H1. rewrite Hp. exact H2.
  - reflexivity.
Qed.

Lemma calculate_distribution_order_irrelevant_witness :
  fst (calculate_distribution {| scores := [5; 7; 5] |})
  = fst (calculate_distribution {| scores := [7; 5; 5] |}).
Proof.
  apply (calculate_distribution_order_irrelevant
           {| scores := [5; 7; 5] |} {| scores := [7; 5; 5] |}).
  cbn [scores]. apply perm_swap.
Defined.

(** X3: the table of two batches of scores recorded one after the other
    is the key-wise sum of the tables of the batches. *)
Theorem calculate_distribution_app (l1 l2 : list Z) :
  exists d1 d2,
    fst (calculate_distribution {| scores := l1 |}) = Returns d1
    /\ fst (calculate_distribution {| scores := l2 |}) = Returns d2
    /\ fst (calculate_distribution {| scores := l1 ++ l2 |})
       = Returns (union_with (fun a b => Some (a + b)) d1 d2).
Proof.
  exists (Counter l1), (Counter l2).
  split; [reflexivity|]. split; [reflexivity|].
  cbn. f_equal. apply map_eq. intros x.
  rewrite lookup_union_with, !Counter_lookup.
  destruct (decide (x ∈ l1 ++ l2)) as [Hin|Hout];
    destruct (decide (x ∈ l1)) as [H1|H1];
    destruct (decide (x ∈ l2)) as [H2|H2];
    cbn; rewrite ?occurrences_app; try reflexivity.
  - rewrite (occurrences_absent l2 x H2). f_equal. lia.
  - rewrite (occurrences_absent l1 x H1). f_equal.
  - exfalso. apply elem_of_app in Hin. tauto.
  - exfalso. apply Hout, elem_of_app. tauto.
  - exfalso. apply Hout, elem_of_app. tauto.
  - exfalso. apply Hout, elem_of_app. tauto.
Qed.

(** ** The sorted items of a table *)

#[export] Instance item_le_transitive : Transitive item_le.
Proof. intros [a1 a2] [b1 b2] [c1 c2]. unfold item_le. cbn. lia. Qed.

#[export] Instance item_le_total : Total item_le.
Proof. intros [a1 a2] [b1 b2]. unfold item_le. cbn. lia. Qed.

Section SortedItemsFacts.
Implicit Types (d : gmap Z Z) (l : list Z) (items : list (Z * Z)).

Lemma sorted_items_Permutation d : sorted_items d ≡ₚ map_to_list d.
Proof. apply merge_sort_Permutation. Qed.

Lemma elem_of_sorted_items d (k v : Z) :
  (k, v) ∈ sorted_items d <-> d !! k = Some v.
Proof. rewrite sorted_items_Permutation. apply elem_of_map_to_list. Qed.

Lemma sorted_items_nil d : sorted_items d = [] <-> d = ∅.
Proof.
  rewrite <- map_to_list_empty_iff. split; intros Hnil.
  - apply Permutation_nil_r. rewrite <- Hnil. symmetry.
    apply sorted_items_Permutation.
  - apply Permutation_nil_r. rewrite <- Hnil. apply sorted_items_Permutation.
Qed.

(** Items sorted lexicographically and with distinct keys have strictly
    increasing keys. *)
Lemma keys_strictly_sorted items :
  StronglySorted item_le items -> NoDup items.*1 ->
  StronglySorted Z.lt items.*1.
Proof.
  induction 1 as [|a items Hs IH Hall]; intros Hnd; cbn; [constructor|].
  apply NoDup_cons in Hnd as [Hout Hnd]. constructor; [exact (IH Hnd)|].
  apply Forall_fmap, Forall_forall. intros b Hb. cbn.
  rewrite Forall_forall in Hall. destruct (Hall b Hb) as [Hlt | [Heq _]].
  - exact Hlt.
  - exfalso. apply Hout. rewrite Heq. apply list_elem_of_fmap. eauto.
Qed.

Lemma sorted_items_keys_sorted d : StronglySorted Z.lt (sorted_items d).*1.
Proof.
  apply keys_strictly_sorted.
  - apply StronglySorted_merge_sort; apply _.
  - rewrite sorted_items_Permutation. apply NoDup_fst_map_to_list.
Qed.

Lemma sum_Z_values_Permutation items1 items2 :
  items1 ≡ₚ items2 -> sum_Z items1.*2 = sum_Z items2.*2.
Proof.
  unfold sum_Z. induction 1 as [|a l1 l2 _ IH|a b l|l1 l2 l3 _ IH1 _ IH2]; cbn.
  - reflexivity.
  - rewrite IH. reflexivity.
  - lia.
  - congruence.
Qed.

Lemma total_count_sum_Z d : total_count d = sum_Z (map_to_list d).*2.
Proof.
  unfold total_count, sum_Z. rewrite map_fold_foldr.
  induction (map_to_list d) as [|[k v] items IH]; cbn; [reflexivity|].
  rewrite IH. reflexivity.
Qed.

Lemma sum_Z_sorted_items d : sum_Z (sorted_items d).*2 = total_count d.
Proof.
  rewrite total_count_sum_Z.
  apply sum_Z_values_Permutation, sorted_items_Permutation.
Qed.

Lemma Counter_empty_iff l : Counter l = ∅ <-> l = [].
Proof.
  split; [|intros ->; reflexivity].
  destruct l as [|x l]; [reflexivity|]. intros Hempty. exfalso.
  assert (Hl : Counter (x :: l) !! x = None) by (rewrite Hempty; apply lookup_empty).
  rewrite Counter_lookup in Hl.
  destruct (decide (x ∈ x :: l)) as [|Hout]; [discriminate|].
  apply Hout. left.
Qed.

(** The two columns of the sorted items line up: the entry next to a key
    is the value of the table at that key. *)
Lemma sorted_items_columns d (i : nat) (k : Z) :
  (sorted_items d).*1 !! i = Some k ->
  exists v, (sorted_items d).*2 !! i = Some v /\ d !! k = Some v.
Proof.
  rewrite !list_lookup_fmap.
  destruct (sorted_items d !! i) as [[k' v]|] eqn:E; [|discriminate].
  cbn. intros [= <-]. exists v. split; [reflexivity|].
  apply elem_of_sorted_items, list_elem_of_lookup. eauto.
Qed.
End SortedItemsFacts.

Section PlotFacts.
Context {G : Type} `{RandomSource G}.
Implicit Types (w : World G).

Lemma plot_distribution_eq w :
  plot_distribution w =
  match sorted_items (Counter (scores (grade_distribution (analyzer w)))) with
  | [] => (Raises ValueError, w)
  | items =>
      (Returns {| bar_scores := items.*1;
                  bar_frequencies := items.*2;
                  title_participants := num_participants (analyzer w);
                  title_shift := knowledge_shift (analyzer w);
                  xticks := range 0 (num_questions (quiz_simulator (analyzer w)) + 1) |},
       w)
  end.
Proof.
  unfold plot_distribution, bind. rewrite distribution_eq.
  destruct (sorted_items _); reflexivity.
Qed.
End PlotFacts.

Section ChartFacts.
Context {G : Type} `{RandomSource G}.
Implicit Types (w : World G) (l : list Z).

Lemma elem_of_sorted_keys l (x : Z) :
  x ∈ (sorted_items (Counter l)).*1 <-> x ∈ l.
Proof.
  rewrite list_elem_of_fmap. split.
  - intros ([k v] & -> & Hin). cbn.
    apply elem_of_sorted_items in Hin. rewrite Counter_lookup in Hin.
    destruct (decide (k ∈ l)); [assumption | discriminate].
  - intros Hin. exists (x, occurrences x l). split; [reflexivity|].
    apply elem_of_sorted_items. rewrite Counter_lookup.
    destruct (decide (x ∈ l)); [reflexivity | contradiction].
Qed.

Lemma sorted_items_Counter_nil l : sorted_items (Counter l) = [] <-> l = [].
Proof. rewrite sorted_items_nil. apply Counter_empty_iff. Qed.

Lemma plot_distribution_returns w :
  scores (grade_distribution (analyzer w)) <> [] ->
  exists chart,
    plot_distribution w = (Returns chart, w)
    /\ bar_scores chart
       = (sorted_items (Counter (scores (grade_distribution (analyzer w))))).*1
    /\ bar_frequencies chart
       = (sorted_items (Counter (scores (grade_distribution (analyzer w))))).*2
    /\ xticks chart = range 0 (num_questions (quiz_simulator (analyzer w)) + 1).
Proof.
  intros Hne. rewrite plot_distribution_eq.
  destruct (sorted_items _) as [|item items] eqn:E.
  - apply sorted_items_Counter_nil in E. contradiction.
  - eexists. split; [reflexivity|]. cbn [bar_scores bar_frequencies xticks]. auto.
Qed.

Lemma plot_distribution_raises w :
  scores (grade_distribution (analyzer w)) = [] ->
  plot_distribution w = (Raises ValueError, w).
Proof.
  intros Hnil. rewrite plot_distribution_eq, Hnil. reflexivity.
Qed.
End ChartFacts.

(** X4: [plot_distribution] raises [ValueError] exactly when no score
    has been recorded (the unpacking of [zip] of no item into two names
    fails), and returns otherwise; either way it leaves the analyzer and
    the generator as they are. *)
Theorem plot_distribution_outcome (G : Type) (RS : RandomSource G) (w : World G) :
  match plot_distribution w with
  | (Returns chart, w') =>
      w' = w /\ scores (grade_distribution (analyzer w)) <> []
  | (Raises e, w') =>
      w' = w /\ e = ValueError /\ scores (grade_distribution (analyzer w)) = []
  end.
Proof.
  destruct (scores (grade_distribution (analyzer w))) as [|x l] eqn:E.
  - rewrite (plot_distribution_raises w E). auto.
  - destruct (plot_distribution_returns w) as (chart & Hplot & _).
    + rewrite E. discriminate.
    + rewrite Hplot. split; [reflexivity | discriminate].
Qed.

(** X5: when at least one score has been recorded, the chart has one bar
    per distinct recorded score, the bars are in strictly increasing
    order of score, and the height of each bar is the number of times its
    score was recorded. *)
Theorem chart_bars (G : Type) (RS : RandomSource G) (w : World G) :
  scores (grade_distribution (analyzer w)) <> [] ->
  exists chart,
    plot_distribution w = (Returns chart, w)
    /\ StronglySorted Z.lt (bar_scores chart)
    /\ length (bar_frequencies chart) = length (bar_scores chart)
    /\ (forall x, x ∈ bar_scores chart
                  <-> x ∈ scores (grade_distribution (analyzer w)))
    /\ (forall (i : nat) x,
          bar_scores chart !! i = Some x ->
          bar_frequencies chart !! i
          = Some (occurrences x (scores (grade_distribution (analyzer w))))).
Proof.
  intros Hne.
  destruct (plot_distribution_returns w Hne) as (chart & Hplot & Hx & Hf & _).
  exists chart. rewrite Hx, Hf. split; [exact Hplot|].
  split; [apply sorted_items_keys_sorted|].
  split; [rewrite !length_fmap; reflexivity|].
  split; [intros x; apply elem_of_sorted_keys|].
  intros i x Hi.
  destruct (sorted_items_columns _ i x Hi) as (v & Hv & Hd).
  rewrite Hv. rewrite Counter_lookup in Hd.
  destruct (decide (x ∈ _)); [symmetry; exact Hd | discriminate].
Qed.

Lemma chart_bars_witness :
  exists chart,
    plot_distribution (append_scores [5; 7; 5] 0 (fresh_world (QuizAnalyzer_init 3 0) 0))
    = (Returns chart, append_scores [5; 7; 5] 0 (fresh_world (QuizAnalyzer_init 3 0) 0))
    /\ StronglySorted Z.lt (bar_scores chart)
    /\ length (bar_frequencies chart) = length (bar_scores chart)
    /\ (forall x, x ∈ bar_scores chart <-> x ∈ [5; 7; 5])
    /\ (forall (i : nat) x,
          bar_scores chart !! i = Some x ->
          bar_frequencies chart !! i = Some (occurrences x [5; 7; 5])).
Proof.
  apply (chart_bars Z lcg_source
           (append_scores [5; 7; 5] 0 (fresh_world (QuizAnalyzer_init 3 0) 0))).
  cbn. discriminate.
Defined.

(** X6: when at least one score has been recorded, the heights of the
    bars sum to the number of recorded scores. *)
Theorem chart_heights_sum (G : Type) (RS : RandomSource G) (w : World G) :
  scores (grade_distribution (analyzer w)) <> [] ->
  exists chart,
    plot_distribution w = (Returns chart, w)
    /\ sum_Z (bar_frequencies chart)
       = Z.of_nat (length (scores (grade_distribution (analyzer w)))).
Proof.
  intros Hne.
  destruct (plot_distribution_returns w Hne) as (chart & Hplot & _ & Hf & _).
  exists chart. split; [exact Hplot|].
  rewrite Hf, sum_Z_sorted_items. apply total_count_Counter.
Qed.

Lemma chart_heights_sum_witness :
  exists chart,
    plot_distribution (append_scores [5; 7; 5] 0 (fresh_world (QuizAnalyzer_init 3 0) 0))
    = (Returns chart, append_scores [5; 7; 5] 0 (fresh_world (QuizAnalyzer_init 3 0) 0))
    /\ sum_Z (bar_frequencies chart) = 3.
Proof.
  apply (chart_heights_sum Z lcg_source
           (append_scores [5; 7; 5] 0 (fresh_world (QuizAnalyzer_init 3 0) 0))).
  cbn. discriminate.
Defined.

(** ** The whole analysis *)

Section AnalyzeFacts.
Context {G : Type} `{RandomSource G}.
Implicit Types (w : World G) (sim : QuizSimulator) (g : G) (l : list Z).

Lemma run_simulation_no_participants w :
  num_participants (analyzer w) <= 0 -> run_simulation w = (Returns tt, w).
Proof.
  intros Hp. rewrite run_simulation_trace.
  replace (Z.to_nat (num_participants (analyzer w))) with O by lia.
  cbn [scores_of_run]. rewrite append_scores_same. reflexivity.
Qed.

Lemma scores_of_run_add sim (a b : nat) : forall g,
  scores_of_run sim (a + b) g =
  match scores_of_run sim a g with
  | ((l1, Returns _), g1) =>
      let '((l2, r), g2) := scores_of_run sim b g1 in ((l1 ++ l2, r), g2)
  | ((l1, Raises e), g1) => ((l1, Raises e), g1)
  end.
Proof.
  induction a as [|a IH]; intros g.
  - cbn. destruct (scores_of_run sim b g) as [[l2 r] g2]. reflexivity.
  - cbn [Nat.add scores_of_run].
    destruct (simulate_participant_score sim g) as [[s|e] g1]; [|reflexivity].
    rewrite IH. destruct (scores_of_run sim a g1) as [[l1 [u|e]] g1']; [|reflexivity].
    destruct (scores_of_run sim b g1') as [[l2 r] g2]. reflexivity.
Qed.

Lemma run_simulation_times_trace (n : nat) : forall w,
  run_simulation_times n w =
  let '((l, r), g') :=
    scores_of_run (quiz_simulator (analyzer w))
      (n * Z.to_nat (num_participants (analyzer w))) (generator w) in
  (r, append_scores l g' w).
Proof.
  unfold run_simulation_times. induction n as [|n IH]; intros w.
  - cbn. rewrite append_scores_same. reflexivity.
  - cbn [repeat_py Nat.mul]. unfold bind at 1.
    rewrite run_simulation_trace, scores_of_run_add.
    destruct (scores_of_run _ (Z.to_nat _) _) as [[l1 [[]|e]] g1]; [|reflexivity].
    rewrite IH.
    cbn [append_scores analyzer generator set_grade_distribution
         quiz_simulator num_participants].
    destruct (scores_of_run _ _ g1) as [[l2 r] g2].
    rewrite append_scores_twice. reflexivity.
Qed.

Lemma analyze_fresh_returns w :
  can_draw (quiz_simulator (analyzer w)) ->
  0 < num_participants (analyzer w) ->
  scores (grade_distribution (analyzer w)) = [] ->
  exists chart l g',
    analyze w = (Returns chart, append_scores l g' w)
    /\ length l = Z.to_nat (num_participants (analyzer w))
    /\ Forall (produced (quiz_simulator (analyzer w))) l
    /\ bar_scores chart = (sorted_items (Counter l)).*1
    /\ bar_frequencies chart = (sorted_items (Counter l)).*2
    /\ xticks chart = range 0 (num_questions (quiz_simulator (analyzer w)) + 1).
Proof.
  intros Hd Hp Hfresh. unfold analyze, bind.
  destruct (run_simulation_returns w Hd) as (l & g' & Hrun & Hlen & Hall).
  rewrite Hrun.
  assert (Hsc : scores (grade_distribution (analyzer (append_scores l g' w))) = l).
  { cbn. rewrite Hfresh. reflexivity. }
  assert (Hne : scores (grade_distribution (analyzer (append_scores l g' w))) <> []).
  { rewrite Hsc. destruct l; [cbn in Hlen; lia | discriminate]. }
  destruct (plot_distribution_returns _ Hne) as (chart & Hplot & Hx & Hf & Ht).
  rewrite Hsc in Hx, Hf. exists chart, l, g'. auto 10.
Qed.
End AnalyzeFacts.

(** X7: [analyze] raises only [ValueError], leaving the analyzer and the
    generator as they were, in two cases: the run cannot draw (a
    participant, a question, no option), or there is no participant and
    no score recorded before, so that there is nothing to plot.  In
    every other case it returns after appending one score per
    participant. *)
Theorem analyze_outcome (G : Type) (RS : RandomSource G) (w : World G) :
  match analyze w with
  | (Returns chart, w') =>
      ~ draw_fails (analyzer w)
      /\ (0 < num_participants (analyzer w)
          \/ scores (grade_distribution (analyzer w)) <> [])
      /\ exists l,
           w' = append_scores l (generator w') w
           /\ length l = Z.to_nat (num_participants (analyzer w))
  | (Raises e, w') =>
      e = ValueError /\ w' = w
      /\ (draw_fails (analyzer w)
          \/ (num_participants (analyzer w) <= 0
              /\ scores (grade_distribution (analyzer w)) = []))
  end.
Proof.
  unfold analyze, bind.
  destruct (Z.ltb_spec 0 (num_participants (analyzer w))) as [Hp | Hp].
  - destruct (can_draw_dec (quiz_simulator (analyzer w))) as [Hd | [Hq Ho]].
    + destruct (run_simulation_returns w Hd) as (l & g' & Hrun & Hlen & _).
      rewrite Hrun.
      destruct (plot_distribution_returns (append_scores l g' w)) as (chart & Hplot & _).
      { cbn. destruct l; [cbn in Hlen; lia|]. intros Happ.
        apply app_eq_nil in Happ as [_ Happ]. discriminate. }
      rewrite Hplot. split; [unfold draw_fails, can_draw in *; lia|].
      split; [left; exact Hp|]. exists l. cbn [append_scores generator]. auto.
    + rewrite (run_simulation_raises w Hp Hq Ho). unfold draw_fails.
      split; [reflexivity|]. split; [reflexivity|]. left. auto.
  - rewrite (run_simulation_no_participants w Hp).
    destruct (scores (grade_distribution (analyzer w))) as [|x l] eqn:E.
    + rewrite (plot_distribution_raises w E). auto.
    + destruct (plot_distribution_returns w) as (chart & Hplot & _).
      { rewrite E. discriminate. }
      rewrite Hplot. split; [unfold draw_fails; lia|].
      split; [right; discriminate|]. exists [].
      rewrite append_scores_same. split; [reflexivity|]. cbn. lia.
Qed.

(** X8: on a fresh accumulator, with draws that cannot fail and at least
    one participant, [analyze] returns a chart whose bar heights sum to
    the number of participants and whose bars all stand at scores of
    the form [min(num_questions, raw + shift)] with a raw count between
    0 and the number of questions. *)
Theorem analyze_fresh_chart (G : Type) (RS : RandomSource G) (w : World G) :
  can_draw (quiz_simulator (analyzer w)) ->
  0 < num_participants (analyzer w) ->
  scores (grade_distribution (analyzer w)) = [] ->
  exists chart w',
    analyze w = (Returns chart, w')
    /\ sum_Z (bar_frequencies chart) = num_participants (analyzer w)
    /\ Forall (produced (quiz_simulator (analyzer w))) (bar_scores chart).
Proof.
  intros Hd Hp Hfresh.
  destruct (analyze_fresh_returns w Hd Hp Hfresh)
    as (chart & l & g' & Hrun & Hlen & Hall & Hx & Hf & _).
  exists chart, (append_scores l g' w). split; [exact Hrun|].
  rewrite Hx, Hf. split.
  - rewrite sum_Z_sorted_items, total_count_Counter, Hlen. lia.
  - apply Forall_forall. intros x Hin. rewrite elem_of_sorted_keys in Hin.
    rewrite Forall_forall in Hall. exact (Hall x Hin).
Qed.

Lemma analyze_fresh_chart_witness :
  exists chart w',
    analyze (fresh_world (QuizAnalyzer_init 10 4) 42) = (Returns chart, w')
    /\ sum_Z (bar_frequencies chart) = 10
    /\ Forall (produced (QuizSimulator_init 20 4 4)) (bar_scores chart).
Proof.
  apply (analyze_fresh_chart Z lcg_source (fresh_world (QuizAnalyzer_init 10 4) 42)).
  - right. cbn. unfold default_num_options. lia.
  - cbn. lia.
  - reflexivity.
Defined.

(** X9: with a non-negative shift and a non-negative number of
    questions (fresh accumulator, draws that cannot fail, at least one
    participant), every bar of the chart stands on one of the ticks
    [0 .. num_questions], and there are at most [num_questions + 1]
    bars. *)
Theorem bars_stand_on_ticks (G : Type) (RS : RandomSource G) (w : World G) :
  can_draw (quiz_simulator (analyzer w)) ->
  0 < num_participants (analyzer w) ->
  scores (grade_distribution (analyzer w)) = [] ->
  0 <= sim_knowledge_shift (quiz_simulator (analyzer w)) ->
  0 <= num_questions (quiz_simulator (analyzer w)) ->
  exists chart w',
    analyze w = (Returns chart, w')
    /\ Forall (fun x => x ∈ xticks chart) (bar_scores chart)
    /\ Z.of_nat (length (bar_scores chart))
       <= num_questions (quiz_simulator (analyzer w)) + 1.
Proof.
  intros Hd Hp Hfresh Hk Hq.
  destruct (analyze_fresh_returns w Hd Hp Hfresh)
    as (chart & l & g' & Hrun & _ & Hall & Hx & _ & Ht).
  exists chart, (append_scores l g' w). split; [exact Hrun|].
  assert (Hticks : forall x, x ∈ bar_scores chart -> x ∈ xticks chart).
  { intros x Hin. rewrite Hx, elem_of_sorted_keys in Hin.
    rewrite Forall_forall in Hall. destruct (Hall x Hin) as (c & Hs & Hb & _).
    rewrite Ht. unfold range. apply elem_of_seqZ. lia. }
  split; [apply Forall_forall; exact Hticks|].
  assert (Hnd : NoDup (bar_scores chart)).
  { rewrite Hx, sorted_items_Permutation. apply NoDup_fst_map_to_list. }
  pose proof (submseteq_length _ _ (NoDup_submseteq _ _ Hnd Hticks)) as Hle.
  rewrite Ht in Hle. unfold range in Hle. rewrite length_seqZ in Hle. lia.
Qed.

Lemma bars_stand_on_ticks_witness :
  exists chart w',
    analyze (fresh_world (QuizAnalyzer_init 10 4) 42) = (Returns chart, w')
    /\ Forall (fun x => x ∈ xticks chart) (bar_scores chart)
    /\ Z.of_nat (length (bar_scores chart)) <= 20 + 1.
Proof.
  apply (bars_stand_on_ticks Z lcg_source (fresh_world (QuizAnalyzer_init 10 4) 42)).
  - right. cbn. unfold default_num_options. lia.
  - cbn. lia.
  - reflexivity.
  - cbn. lia.
  - cbn. unfold default_num_questions. lia.
Defined.

(** X10: [n] successive calls of [run_simulation] with [k] participants
    record the same scores, leave the same generator and end the same
    way as a single call with [n * k] participants started from the same
    accumulator and generator. *)
Theorem repeated_runs_are_one_run (G : Type) (RS : RandomSource G)
    (w1 w2 : World G) (n : nat) :
  quiz_simulator (analyzer w1) = quiz_simulator (analyzer w2) ->
  grade_distribution (analyzer w1) = grade_distribution (analyzer w2) ->
  generator w1 = generator w2 ->
  num_participants (analyzer w2) = Z.of_nat n * num_participants (analyzer w1) ->
  fst (run_simulation_times n w1) = fst (run_simulation w2)
  /\ grade_distribution (analyzer (snd (run_simulation_times n w1)))
     = grade_distribution (analyzer (snd (run_simulation w2)))
  /\ generator (snd (run_simulation_times n w1))
     = generator (snd (run_simulation w2)).
Proof.
  intros Hsim Hgd Hg Hp.
  rewrite run_simulation_times_trace, run_simulation_trace.
  assert (Hn : Z.to_nat (num_participants (analyzer w2))
               = (n * Z.to_nat (num_participants (analyzer w1)))%nat).
  { rewrite Hp. destruct (Z.le_gt_cases 0 (num_participants (analyzer w1))).
    - rewrite Z2Nat.inj_mul, Nat2Z.id by lia. reflexivity.
    - replace (Z.to_nat (num_participants (analyzer w1))) with O by lia.
      rewrite Nat.mul_0_r. apply Z2Nat.nonpos. nia. }
  rewrite Hn, <- Hsim, <- Hg.
  destruct (scores_of_run _ _ _) as [[l r] g'].
  cbn [fst snd append_scores analyzer generator set_grade_distribution
       grade_distribution].
  rewrite Hgd. auto.
Qed.

Lemma repeated_runs_are_one_run_witness :
  fst (run_simulation_times 3 (fresh_world (QuizAnalyzer_init 4 1) 5))
  = fst (run_simulation (fresh_world (QuizAnalyzer_init 12 1) 5))
  /\ grade_distribution
       (analyzer (snd (run_simulation_times 3 (fresh_world (QuizAnalyzer_init 4 1) 5))))
     = grade_distribution
         (analyzer (snd (run_simulation (fresh_world (QuizAnalyzer_init 12 1) 5))))
  /\ generator (snd (run_simulation_times 3 (fresh_world (QuizAnalyzer_init 4 1) 5)))
     = generator (snd (run_simulation (fresh_world (QuizAnalyzer_init 12 1) 5))).
Proof.
  apply (repeated_runs_are_one_run Z lcg_source
           (fresh_world (QuizAnalyzer_init 4 1) 5)
           (fresh_world (QuizAnalyzer_init 12 1) 5) 3); reflexivity.
Defined.

(** X11: with one, two or three options no draw can equal 4, so the
    simulator returns [min(num_questions, knowledge_shift)] whatever the
    generator yields. *)
Theorem few_options_constant_score (G : Type) (RS : RandomSource G)
    (self : QuizSimulator) (g : G) :
  1 <= num_options self < 4 ->
  exists g',
    simulate_participant_score self g
    = (Returns (Z.min (num_questions self) (sim_knowledge_shift self)), g').
Proof.
  intros [Hlo Hhi].
  destruct (simulate_returns self g) as (c & g' & _ & Hs & _ & Hz).
  - right. exact Hlo.
  - exists g'. rewrite Hs, (Hz Hhi). reflexivity.
Qed.

Lemma few_options_constant_score_witness :
  exists g',
    simulate_participant_score (QuizSimulator_init 10 3 2) 9
    = (Returns (Z.min 10 2), g').
Proof.
  apply (few_options_constant_score Z lcg_source (QuizSimulator_init 10 3 2) 9).
  cbn. lia.
Defined.

(** X12: recording a score and tallying again raises the frequency of
    that score by one, starting from one when the score is new, and
    changes no other entry of the table. *)
Theorem add_score_increments (self : GradeDistribution) (score : Z) :
  exists d d' self',
    calculate_distribution self = (Returns d, self)
    /\ add_score score self = (Returns tt, self')
    /\ calculate_distribution self' = (Returns d', self')
    /\ d' !! score = Some (default 0 (d !! score) + 1)
    /\ forall other, other <> score -> d' !! other = d !! other.
Proof.
  exists (Counter (scores self)), (Counter (scores self ++ [score])),
         {| scores := scores self ++ [score] |}.
  split; [reflexivity|]. split; [reflexivity|]. split; [reflexivity|].
  unfold Counter. rewrite foldl_app. cbn [foldl]. unfold count_element at 1 3.
  split.
  - apply lookup_insert_eq.
  - intros other Hne. apply lookup_insert_ne. congruence.
Qed.

(** X13: [QuizAnalyzer(num_participants, knowledge_shift).analyze()]
    raises, with [ValueError] and without changing anything, exactly
    when [num_participants <= 0]; otherwise it returns a chart titled
    with the two arguments, with ticks [0 .. 20], bars between
    [min(20, knowledge_shift)] and 20, and heights that sum to
    [num_participants]. *)
Theorem constructed_analyzer_analyze (G : Type) (RS : RandomSource G)
    (participants shift : Z) (g : G) :
  match analyze (fresh_world (QuizAnalyzer_init participants shift) g) with
  | (Returns chart, w') =>
      0 < participants
      /\ title_participants chart = participants
      /\ title_shift chart = shift
      /\ xticks chart = seqZ 0 21
      /\ Forall (fun x => Z.min 20 shift <= x <= 20) (bar_scores chart)
      /\ sum_Z (bar_frequencies chart) = participants
  | (Raises e, w') =>
      participants <= 0 /\ e = ValueError
      /\ w' = fresh_world (QuizAnalyzer_init participants shift) g
  end.
Proof.
  set (w := fresh_world (QuizAnalyzer_init participants shift) g).
  assert (Hd : can_draw (quiz_simulator (analyzer w))).
  { right. cbn. unfold default_num_options. lia. }
  destruct (Z.ltb_spec 0 participants) as [Hp | Hp].
  - destruct (analyze_fresh_returns w Hd Hp eq_refl)
      as (chart & l & g' & Hrun & Hlen & Hall & Hx & Hf & Ht).
    rewrite Hrun. split; [exact Hp|].
    unfold analyze, bind in Hrun.
    destruct (run_simulation w) as [[[]|e] w1]; [|discriminate].
    rewrite plot_distribution_eq in Hrun.
    destruct (sorted_items _) as [|item items]; [discriminate|].
    injection Hrun as <- Hw1.
    cbn [title_participants title_shift xticks bar_scores bar_frequencies] in *.
    rewrite Hw1. cbn [append_scores analyzer set_grade_distribution
                      num_participants knowledge_shift quiz_simulator].
    split; [reflexivity|]. split; [reflexivity|]. split; [reflexivity|].
    split.
    + rewrite Hx. apply Forall_forall. intros x Hin.
      rewrite elem_of_sorted_keys in Hin. rewrite Forall_forall in Hall.
      destruct (Hall x Hin) as (c & Hs & Hb & _).
      cbn in Hs, Hb. unfold default_num_questions in Hs, Hb. lia.
    + rewrite Hf, sum_Z_sorted_items, total_count_Counter, Hlen. cbn. lia.
  - unfold analyze, bind. rewrite (run_simulation_no_participants w Hp).
    rewrite (plot_distribution_raises w eq_refl). auto.
Qed.

(** ** A run reads its generator through the draws only *)

Section DrawFacts.
Context {G : Type} `{RandomSource G}.
Implicit Types (w : World G) (sim : QuizSimulator) (g : G).

Lemma length_draws (bound : Z) (n : nat) : forall g, length (draws bound n g) = n.
Proof. induction n as [|n IH]; intros g; cbn; [reflexivity | rewrite IH; reflexivity]. Qed.

Lemma draws_add (bound : Z) (a b : nat) : forall g,
  draws bound (a + b) g = draws bound a g ++ draws bound b (after_draws bound a g).
Proof.
  induction a as [|a IH]; intros g; cbn; [reflexivity|].
  rewrite IH. reflexivity.
Qed.

Lemma after_draws_add (bound : Z) (a b : nat) : forall g,
  after_draws bound (a + b) g = after_draws bound b (after_draws bound a g).
Proof. induction a as [|a IH]; intros g; cbn; [reflexivity | apply IH]. Qed.

Lemma sum_draws_of_draws (opts : Z) (n : nat) : 1 <= opts -> forall acc g,
  sum_draws opts n acc g =
  (Returns (foldl (fun acc r => acc + int_of_bool (is_correct (1 + r))) acc
                  (draws opts n g)),
   after_draws opts n g).
Proof.
  intros Hopts. induction n as [|n IH]; intros acc g; [reflexivity|].
  cbn [sum_draws draws after_draws foldl]. unfold bind, randint, randrange.
  rewrite Z.add_simpl_r.
  destruct (Z.ltb_spec 0 opts); [|lia].
  destruct (randbelow opts g) as [r g1]. cbn [fst snd]. apply IH.
Qed.

Lemma simulate_of_draws sim g :
  can_draw sim ->
  simulate_participant_score sim g =
  (Returns (score_of_draws sim
              (draws (num_options sim) (Z.to_nat (num_questions sim)) g)),
   after_draws (num_options sim) (Z.to_nat (num_questions sim)) g).
Proof.
  intros [Hq | Ho]; unfold simulate_participant_score, correct_answers, bind.
  - replace (Z.to_nat (num_questions sim)) with O by lia. reflexivity.
  - rewrite (sum_draws_of_draws _ _ Ho). reflexivity.
Qed.

Lemma scores_of_run_of_draws sim (n : nat) : can_draw sim -> forall g,
  scores_of_run sim n g =
  ((scores_of_draws sim n
      (draws (num_options sim) (n * Z.to_nat (num_questions sim)) g),
    Returns tt),
   after_draws (num_options sim) (n * Z.to_nat (num_questions sim)) g).
Proof.
  intros Hd. induction n as [|n IH]; intros g; [reflexivity|].
  cbn [scores_of_run scores_of_draws Nat.mul].
  rewrite (simulate_of_draws sim g Hd), IH, draws_add, after_draws_add.
  rewrite take_app_length', drop_app_length' by (symmetry; apply length_draws).
  reflexivity.
Qed.

Lemma draw_fails_b_spec (a : QuizAnalyzer) :
  if draw_fails_b a then draw_fails a else ~ draw_fails a.
Proof.
  unfold draw_fails_b, draw_fails.
  destruct (Z.ltb_spec 0 (num_participants a));
    destruct (Z.ltb_spec 0 (num_questions (quiz_simulator a)));
    destruct (Z.ltb_spec (num_options (quiz_simulator a)) 1); cbn; lia.
Qed.

(** The run followed by the tally, in terms of the draws: the table and
    the score list it leaves. *)
Lemma run_and_tally_of_draws w :
  fst (run_and_tally w) = tally_of_draws (analyzer w) (draws_of_run (analyzer w) (generator w))
  /\ scores (grade_distribution (analyzer (snd (run_and_tally w))))
     = if draw_fails_b (analyzer w)
       then scores (grade_distribution (analyzer w))
       else scores (grade_distribution (analyzer w))
            ++ scores_of_draws (quiz_simulator (analyzer w))
                 (Z.to_nat (num_participants (analyzer w)))
                 (draws_of_run (analyzer w) (generator w)).
Proof.
  unfold run_and_tally, bind, tally_of_draws, draws_of_run.
  pose proof (draw_fails_b_spec (analyzer w)) as Hspec.
  destruct (draw_fails_b (analyzer w)).
  - destruct Hspec as (Hp & Hq & Ho).
    rewrite (run_simulation_raises w Hp Hq Ho). split; reflexivity.
  - rewrite run_simulation_trace.
    destruct (can_draw_dec (quiz_simulator (analyzer w))) as [Hd | [Hq Ho]].
    + rewrite (scores_of_run_of_draws _ _ Hd), distribution_eq.
      split; reflexivity.
    + replace (Z.to_nat (num_participants (analyzer w))) with O
        by (unfold draw_fails in Hspec; lia).
      cbn [scores_of_run Nat.mul draws scores_of_draws].
      rewrite distribution_eq. split; reflexivity.
Qed.
End DrawFacts.

(** C8: two runs with the same simulator, the same number of
    participants and the same accumulated scores, whose random sources
    yield the same draws, return the same table and leave the same
    scores, whatever the generators are and whatever else their states
    hold; in particular two runs started from the same state of the same
    generator.  The table is [tally_of_draws], a function of the
    configuration and of the draws. *)
Theorem same_draws_same_distribution
    (G1 G2 : Type) (RS1 : RandomSource G1) (RS2 : RandomSource G2)
    (w1 : World G1) (w2 : World G2) :
  quiz_simulator (analyzer w1) = quiz_simulator (analyzer w2) ->
  num_participants (analyzer w1) = num_participants (analyzer w2) ->
  grade_distribution (analyzer w1) = grade_distribution (analyzer w2) ->
  draws_of_run (analyzer w1) (generator w1)
  = draws_of_run (analyzer w2) (generator w2) ->
  fst (run_and_tally w1) = fst (run_and_tally w2)
  /\ scores (grade_distribution (analyzer (snd (run_and_tally w1))))
     = scores (grade_distribution (analyzer (snd (run_and_tally w2))))
  /\ fst (run_and_tally w1)
     = tally_of_draws (analyzer w1) (draws_of_run (analyzer w1) (generator w1)).
Proof.
  intros Hsim Hp Hgd Hdraws.
  destruct (run_and_tally_of_draws w1) as [Ht1 Hs1].
  destruct (run_and_tally_of_draws w2) as [Ht2 Hs2].
  assert (Hfail : draw_fails_b (analyzer w1) = draw_fails_b (analyzer w2)).
  { unfold draw_fails_b. rewrite Hsim, Hp. reflexivity. }
  split; [|split; [|exact Ht1]].
  - rewrite Ht1, Ht2. unfold tally_of_draws.
    rewrite Hfail, Hsim, Hp, Hgd, Hdraws. reflexivity.
  - rewrite Hs1, Hs2, Hfail, Hsim, Hp, Hgd, Hdraws. reflexivity.
Qed.

Lemma same_draws_same_distribution_witness :
  let tape := [1; 0; 3; 0; 0; 2; 3; 2; 1; 2; 1; 3; 0; 3; 1; 1; 2; 0; 1; 3;
               1; 2; 1; 3; 3; 2; 2; 2; 0; 0; 3; 2; 2; 2; 1; 1; 0; 3; 1; 0;
               7; 7; 7] in
  let w1 := @fresh_world Z (QuizAnalyzer_init 2 1) 11 in
  let w2 := @fresh_world (list Z) (QuizAnalyzer_init 2 1) tape in
  fst (@run_and_tally Z lcg_source w1)
  = fst (@run_and_tally (list Z) replay_source w2)
  /\ scores (grade_distribution (analyzer (snd (@run_and_tally Z lcg_source w1))))
     = scores (grade_distribution
                 (analyzer (snd (@run_and_tally (list Z) replay_source w2))))
  /\ fst (@run_and_tally Z lcg_source w1)
     = tally_of_draws (analyzer w1)
         (@draws_of_run Z lcg_source (analyzer w1) (generator w1)).
Proof.
  cbv zeta.
  apply (same_draws_same_distribution Z (list Z) lcg_source replay_source);
    reflexivity.
Defined.

(** ** Repeated runs on one analyzer *)

(** C10 as stated fails: constructed with -3 participants, the analyzer
    records nothing in two runs, because [range(-3)] is empty, and the
    frequencies of the table sum to 0, not to [2 * (-3)]. *)
Lemma negative_participants_record_nothing :
  exists d w',
    run_simulation_times 2 (fresh_world (QuizAnalyzer_init (-3) 4) 0)
    = (Returns tt, w')
    /\ distribution w' = (Returns d, w')
    /\ total_count d <> 2 * num_participants (QuizAnalyzer_init (-3) 4).
Proof.
  exists ∅, (fresh_world (QuizAnalyzer_init (-3) 4) 0).
  split; [reflexivity|]. split; [reflexivity|].
  rewrite total_count_empty. cbn. lia.
Qed.

(** C10, amended: the accumulator is never reset.  [n] calls of
    [run_simulation] on the same analyzer append
    [max(0, num_participants)] scores each after the scores already
    accumulated, none of which is dropped; the tally taken afterwards
    leaves the analyzer and the generator as they are, and its
    frequencies sum to the number of scores accumulated before plus
    [n * max(0, num_participants)].  The calls fail only when the draws
    do (a participant, a question, no option, which no constructed
    analyzer has): then the first call raises and nothing is recorded. *)
Theorem scores_accumulate_over_runs (G : Type) (RS : RandomSource G)
    (w : World G) (n : nat) :
  match run_simulation_times n w with
  | (Returns _, w') =>
      ~ (draw_fails (analyzer w) /\ (0 < n)%nat)
      /\ exists l,
           w' = append_scores l (generator w') w
           /\ scores (grade_distribution (analyzer w'))
              = scores (grade_distribution (analyzer w)) ++ l
           /\ Z.of_nat (length l)
              = Z.of_nat n * Z.max 0 (num_participants (analyzer w))
           /\ exists d,
                distribution w' = (Returns d, w')
                /\ total_count d
                   = Z.of_nat (length (scores (grade_distribution (analyzer w))))
                     + Z.of_nat n * Z.max 0 (num_participants (analyzer w))
  | (Raises e, w') =>
      draw_fails (analyzer w) /\ (0 < n)%nat /\ e = ValueError /\ w' = w
  end.
Proof.
  rewrite run_simulation_times_trace.
  assert (Hmul : forall m : nat,
            m = (n * Z.to_nat (num_participants (analyzer w)))%nat ->
            Z.of_nat m = Z.of_nat n * Z.max 0 (num_participants (analyzer w))).
  { intros m ->. rewrite Nat2Z.inj_mul. lia. }
  assert (Hreturns : forall l g',
            Z.of_nat (length l)
            = Z.of_nat n * Z.max 0 (num_participants (analyzer w)) ->
            exists l0,
              append_scores l g' w
              = append_scores l0 (generator (append_scores l g' w)) w
              /\ scores (grade_distribution (analyzer (append_scores l g' w)))
                 = scores (grade_distribution (analyzer w)) ++ l0
              /\ Z.of_nat (length l0)
                 = Z.of_nat n * Z.max 0 (num_participants (analyzer w))
              /\ exists d,
                   distribution (append_scores l g' w)
                   = (Returns d, append_scores l g' w)
                   /\ total_count d
                      = Z.of_nat (length (scores (grade_distribution (analyzer w))))
                        + Z.of_nat n * Z.max 0 (num_participants (analyzer w))).
  { intros l g' Hlen. exists l. split; [reflexivity|]. split; [reflexivity|].
    split; [exact Hlen|]. eexists. split; [apply distribution_eq|].
    rewrite total_count_Counter.
    cbn [append_scores analyzer set_grade_distribution grade_distribution scores].
    rewrite length_app. lia. }
  destruct (can_draw_dec (quiz_simulator (analyzer w))) as [Hd | [Hq Ho]].
  - destruct (scores_of_run_returns (quiz_simulator (analyzer w))
                (n * Z.to_nat (num_participants (analyzer w))) Hd (generator w))
      as (l & g' & Hrun & Hlen & _).
    rewrite Hrun. split.
    + unfold draw_fails, can_draw in *. lia.
    + apply Hreturns. apply Hmul. exact Hlen.
  - destruct (n * Z.to_nat (num_participants (analyzer w)))%nat as [|m] eqn:E.
    + cbn [scores_of_run]. split.
      * unfold draw_fails. intros [(Hp & _) Hn].
        assert (0 < n * Z.to_nat (num_participants (analyzer w)))%nat
          by (apply Nat.mul_pos_pos; lia).
        lia.
      * apply Hreturns. cbn [length]. apply (Hmul O). reflexivity.
    + rewrite (scores_of_run_raises _ m (generator w) Hq Ho).
      rewrite append_scores_same.
      assert (Hn : (0 < n)%nat) by (destruct n; [discriminate E | lia]).
      assert (Hp : 0 < num_participants (analyzer w)).
      { destruct (Z.ltb_spec 0 (num_participants (analyzer w))) as [|Hle]; [assumption|].
        replace (Z.to_nat (num_participants (analyzer w))) with O in E by lia.
        rewrite Nat.mul_0_r in E. discriminate E. }
      unfold draw_fails. auto.
Qed.
